(** * heroui-admin: the task service, the task context and the task dialogs

    A shallow embedding of
      - [useTasksService]  (features/tasks/services/tasks-service),
      - [TasksProvider] and [useTasks] (features/tasks/context/tasks-context),
      - [TasksDialogs]     (features/tasks/components/tasks-dialogs),
      - [onSubmit] of [AppearanceForm]
                           (features/settings/appearance/appearance-form),
    followed by the properties of these functions.

    React state cells are fields of a [World]; every call of a state setter,
    of [toast] and of [console.error] is also appended to the world's [log],
    in program order.  An [async] function is a computation [M A] over the
    world that either returns or throws; [await] of a remote call is resolved
    by the reply the remote client gives to that call. *)

From Stdlib Require Import List String Bool Arith Lia.
Import ListNotations.
Open Scope string_scope.

(** ** Data model *)

(** [Task] (data/schema): an [id] and the domain fields, kept as the
    property list of the JS object. *)
Record Task : Type := mkTask {
  id : string;
  fields : list (string * string)
}.

(** [Omit<Task, 'id'>] and [Partial<Task>]: property lists handed to the
    remote client as they are. *)
Definition TaskInput : Type := list (string * string).
Definition TaskPatch : Type := list (string * string).

(** [type TasksDialogType = 'create' | 'update' | 'delete' | 'import'] *)
Inductive TasksDialogType : Type :=
| create | update | delete | import.

Definition TasksDialogType_eqb (a b : TasksDialogType) : bool :=
  match a, b with
  | create, create | update, update | delete, delete | import, import => true
  | _, _ => false
  end.

(** [open === 'create'] for [open : TasksDialogType | null]. *)
Definition open_is (o : option TasksDialogType) (d : TasksDialogType) : bool :=
  match o with
  | Some d' => TasksDialogType_eqb d' d
  | None => false
  end.

(** A thrown value ([catch (err: any)]): all the code reads of it is
    [err.message], which may be missing. *)
Record JsError : Type := mkError {
  message : option string
}.

(** [new Error(msg)] *)
Definition Error (msg : string) : JsError := {| message := Some msg |}.

(** [m || fallback] on an optional string: [undefined] and the empty string
    are falsy. *)
Definition or_else (m : option string) (fallback : string) : string :=
  match m with
  | None => fallback
  | Some EmptyString => fallback
  | Some s => s
  end.

(** ** The remote client

    The client module (lib/supabase/client) is not part of the sources; it is
    a parameter of the service.  A finished query gives [{ data, error }]
    with one of the two populated; the promise itself may also reject.
    [data] has the type the calling code gives it: [fetchTasks] takes it
    [as Task[]], [getTaskById] and [createTask] [as Task], [updateTask]
    inspects it, [deleteTask] does not read it. *)
Inductive Response (T : Type) : Type :=
| Success (data : T)
| Failure (error : JsError).
Arguments Success {T} data.
Arguments Failure {T} error.

Inductive Reply (T : Type) : Type :=
| Resolved (r : Response T)
| Rejected (err : JsError).
Arguments Resolved {T} r.
Arguments Rejected {T} err.

(** The [data] of [update(..).eq(..).select()] as [updateTask] inspects it:
    falsy, an array, or a single object. *)
Inductive UpdateData : Type :=
| DataNull
| DataArray (rows : list Task)
| DataObject (row : Task).

Record Supabase : Type := mkSupabase {
  (* from('tasks').select('*') *)
  select_all : Reply (list Task);
  (* from('tasks').select('*').eq('id', id).single() *)
  select_eq_single : string -> Reply Task;
  (* from('tasks').insert(task).select().single() *)
  insert_select_single : TaskInput -> Reply Task;
  (* from('tasks').update(task).eq('id', id).select() *)
  update_eq_select : TaskPatch -> string -> Reply UpdateData;
  (* from('tasks').delete().eq('id', id) *)
  delete_eq : string -> Reply unit
}.

(** ** Effects *)

Inductive Effect : Type :=
| SetTasks (next : list Task)
| SetLoading (b : bool)
| SetError (e : option string)
| SetOpen (str : option TasksDialogType)
| SetCurrentRow (row : option Task)
| ToastError (msg : string)
| ToastSuccess (msg : string)
| ConsoleError (msg : string) (err : JsError).

Record World : Type := mkWorld {
  tasks : list Task;
  loading : bool;
  error : option string;
  open : option TasksDialogType;
  currentRow : option Task;
  log : list Effect
}.

(** What [useState] gives on the first render, with nothing done yet. *)
Definition initial : World :=
  {| tasks := []; loading := false; error := None;
     open := None; currentRow := None; log := [] |}.

Inductive Completion (A : Type) : Type :=
| Returned (a : A)
| Thrown (err : JsError).
Arguments Returned {A} a.
Arguments Thrown {A} err.

Definition M (A : Type) : Type := World -> Completion A * World.

Definition ret {A} (a : A) : M A := fun w => (Returned a, w).

Definition throw {A} (err : JsError) : M A := fun w => (Thrown err, w).

Definition bind {A B} (m : M A) (k : A -> M B) : M B :=
  fun w =>
    match m w with
    | (Returned a, w') => k a w'
    | (Thrown err, w') => (Thrown err, w')
    end.

(** [try { body } catch (err) { handler }] *)
Definition try_catch {A} (body : M A) (handler : JsError -> M A) : M A :=
  fun w =>
    match body w with
    | (Returned a, w') => (Returned a, w')
    | (Thrown err, w') => handler err w'
    end.

(** [try { .. } finally { fin }]: [fin] runs on both exits and the
    completion of the protected part stands, unless [fin] throws. *)
Definition try_finally {A} (body : M A) (fin : M unit) : M A :=
  fun w =>
    match body w with
    | (c, w') =>
        match fin w' with
        | (Returned _, w'') => (c, w'')
        | (Thrown err, w'') => (Thrown err, w'')
        end
    end.

Definition try_catch_finally {A}
  (body : M A) (handler : JsError -> M A) (fin : M unit) : M A :=
  try_finally (try_catch body handler) fin.

(** [await] of a remote call. *)
Definition await {T} (r : Reply T) : M (Response T) :=
  match r with
  | Resolved resp => ret resp
  | Rejected err => throw err
  end.

Declare Scope js_scope.
Delimit Scope js_scope with js.
Notation "'const' x <- m ; k" := (bind m (fun x => k))
  (at level 10, x name, m at level 100, k at level 200) : js_scope.
Notation "m ;; k" := (bind m (fun _ => k))
  (at level 100, k at level 200, right associativity) : js_scope.
Open Scope js_scope.

Definition emit (e : Effect) (w : World) : list Effect := log w ++ [e].

Definition setTasks (f : list Task -> list Task) : M unit :=
  fun w =>
    let next := f (tasks w) in
    (Returned tt,
     {| tasks := next; loading := loading w; error := error w;
        open := open w; currentRow := currentRow w;
        log := emit (SetTasks next) w |}).

Definition setLoading (b : bool) : M unit :=
  fun w =>
    (Returned tt,
     {| tasks := tasks w; loading := b; error := error w;
        open := open w; currentRow := currentRow w;
        log := emit (SetLoading b) w |}).

Definition setError (e : option string) : M unit :=
  fun w =>
    (Returned tt,
     {| tasks := tasks w; loading := loading w; error := e;
        open := open w; currentRow := currentRow w;
        log := emit (SetError e) w |}).

Definition setCurrentRow (row : option Task) : M unit :=
  fun w =>
    (Returned tt,
     {| tasks := tasks w; loading := loading w; error := error w;
        open := open w; currentRow := row;
        log := emit (SetCurrentRow row) w |}).

Definition tell (e : Effect) : M unit :=
  fun w =>
    (Returned tt,
     {| tasks := tasks w; loading := loading w; error := error w;
        open := open w; currentRow := currentRow w;
        log := emit e w |}).

Definition toast_error (msg : string) : M unit := tell (ToastError msg).
Definition toast_success (msg : string) : M unit := tell (ToastSuccess msg).
Definition console_error (msg : string) (err : JsError) : M unit :=
  tell (ConsoleError msg err).

(** ** useTasksService *)

Section Service.

Variable supabase : Supabase.

Definition fetchTasks : M unit :=
  setLoading true ;;
  setError None ;;
  try_catch_finally
    (const r <- await (select_all supabase) ;
     match r with
     | Failure error => throw error
     | Success data => setTasks (fun _ => data)
     end)
    (fun err =>
       let errorMessage :=
         or_else (message err) "Failed to fetch tasks, please try again later" in
       toast_error errorMessage ;;
       setError (Some errorMessage))
    (setLoading false).

Definition getTaskById (id : string) : M Task :=
  try_catch
    (const r <- await (select_eq_single supabase id) ;
     match r with
     | Failure error => throw error
     | Success data => ret data
     end)
    (fun err =>
       let errorMessage :=
         or_else (message err) ("获取任务 " ++ id ++ " 失败") in
       toast_error errorMessage ;;
       throw err).

Definition createTask (task : TaskInput) : M Task :=
  try_catch
    (const r <- await (insert_select_single supabase task) ;
     match r with
     | Failure error => throw error
     | Success data =>
         let newTask := data in
         setTasks (fun prev => (prev ++ [newTask])%list) ;;
         toast_success "Task created successfully" ;;
         ret newTask
     end)
    (fun err =>
       let errorMessage := or_else (message err) "Failed to create task" in
       toast_error errorMessage ;;
       throw err).

Definition updateTask (id : string) (task : TaskPatch) : M Task :=
  try_catch
    (const r <- await (update_eq_select supabase task id) ;
     match r with
     | Failure error => throw error
     | Success data =>
         match data with
         (* !data || (Array.isArray(data) && data.length === 0) *)
         | DataNull | DataArray [] =>
             throw (Error ("Task with ID " ++ id ++ " not found"))
         (* Array.isArray(data) ? data[0] : data *)
         | DataArray (updatedTask :: _) =>
             toast_success "Task updated successfully" ;;
             ret updatedTask
         | DataObject updatedTask =>
             toast_success "Task updated successfully" ;;
             ret updatedTask
         end
     end)
    (fun err =>
       let errorMessage :=
         or_else (message err) ("Failed to update task " ++ id) in
       toast_error errorMessage ;;
       throw err).

(** The parameter [id] of the source is [id'] here, next to the field
    [id] of the filtered records. *)
Definition deleteTask (id' : string) : M unit :=
  try_catch
    (const r <- await (delete_eq supabase id') ;
     match r with
     | Failure error => throw error
     | Success _ =>
         setTasks (fun prev => filter (fun t => negb (id t =? id')) prev) ;;
         toast_success "Task deleted successfully"
     end)
    (fun err =>
       let errorMessage :=
         or_else (message err) ("Failed to delete task " ++ id') in
       toast_error errorMessage ;;
       throw err).

(** The object returned by the hook in a render that sees world [w]. *)
Record TasksService : Type := mkService {
  svc_tasks : list Task;
  svc_loading : bool;
  svc_error : option string;
  svc_fetchTasks : M unit;
  svc_getTaskById : string -> M Task;
  svc_createTask : TaskInput -> M Task;
  svc_updateTask : string -> TaskPatch -> M Task;
  svc_deleteTask : string -> M unit
}.

Definition useTasksService (w : World) : TasksService :=
  {| svc_tasks := tasks w;
     svc_loading := loading w;
     svc_error := error w;
     svc_fetchTasks := fetchTasks;
     svc_getTaskById := getTaskById;
     svc_createTask := createTask;
     svc_updateTask := updateTask;
     svc_deleteTask := deleteTask |}.

End Service.

(** ** TasksProvider, useTasks *)

(** The value published by the provider.  The operations of the service are
    carried as they are; state values are the ones of the render that built
    the object. *)
Record TasksContextType : Type := mkContext {
  ctx_open : option TasksDialogType;
  ctx_setOpen : option TasksDialogType -> M unit;
  ctx_currentRow : option Task;
  ctx_setCurrentRow : option Task -> M unit;
  ctx_tasks : list Task;
  ctx_loading : bool;
  ctx_error : option string;
  ctx_fetchTasks : M unit;
  ctx_createTask : TaskInput -> M Task;
  ctx_updateTask : string -> TaskPatch -> M Task;
  ctx_deleteTask : string -> M unit
}.

(** [React.useContext(TasksContext)]: the value of the nearest enclosing
    provider, and the default given to [createContext], [null], when there
    is none.  [providers] lists the enclosing providers' values, nearest
    first. *)
Definition useContext (providers : list TasksContextType)
  : option TasksContextType :=
  match providers with
  | [] => None
  | value :: _ => Some value
  end.

Definition useTasks (providers : list TasksContextType)
  : Completion TasksContextType :=
  let tasksContext := useContext providers in
  match tasksContext with
  | None => Thrown (Error "useTasks has to be used within <TasksContext>")
  | Some tasksContext => Returned tasksContext
  end.

(** ** TasksDialogs *)

Inductive Inline : Type :=
| Text (s : string)
| Strong (s : string)
| Br.

Inductive Element : Type :=
| TasksMutateDrawer (key : string) (open : bool) (onOpenChange : M unit)
    (currentRow : option Task)
| TasksImportDialog (key : string) (open : bool) (onOpenChange : M unit)
| ConfirmDialog (key : string) (destructive : bool) (open : bool)
    (onOpenChange : M unit) (handleConfirm : M unit)
    (className title : string) (desc : list Inline) (confirmText : string).

Definition is_ConfirmDialog (e : Element) : bool :=
  match e with
  | ConfirmDialog _ _ _ _ _ _ _ _ _ => true
  | _ => false
  end.

(** The update drawer is the [TasksMutateDrawer] that is given a row. *)
Definition is_update_drawer (e : Element) : bool :=
  match e with
  | TasksMutateDrawer _ _ _ (Some _) => true
  | _ => false
  end.

(** [currentRow && ...]: whether the context holds a row. *)
Definition has_row (ctx : TasksContextType) : bool :=
  match ctx_currentRow ctx with
  | Some _ => true
  | None => false
  end.

(** A confirm dialog that is rendered with [open] true. *)
Definition is_open_ConfirmDialog (e : Element) : bool :=
  match e with
  | ConfirmDialog _ _ o _ _ _ _ _ _ => o
  | _ => false
  end.

(** The [handleConfirm] closure given to the confirm dialog. *)
Definition handleConfirm (ctx : TasksContextType) (currentRow : Task) : M unit :=
  try_catch
    (ctx_deleteTask ctx (id currentRow) ;;
     ctx_setOpen ctx None ;;
     ctx_setCurrentRow ctx None)
    (fun error => console_error "Failed to delete task" error).

Definition TasksDialogs (providers : list TasksContextType)
  : Completion (list Element) :=
  match useTasks providers with
  | Thrown err => Thrown err
  | Returned ctx =>
      Returned
        ([ TasksMutateDrawer "task-create"
             (open_is (ctx_open ctx) create)
             (ctx_setOpen ctx (Some create))
             None;
           TasksImportDialog "tasks-import"
             (open_is (ctx_open ctx) import)
             (ctx_setOpen ctx (Some import)) ]
         ++
         match ctx_currentRow ctx with
         | None => []
         | Some currentRow =>
             [ TasksMutateDrawer ("task-update-" ++ id currentRow)
                 (open_is (ctx_open ctx) update)
                 (ctx_setOpen ctx (Some update) ;;
                  ctx_setCurrentRow ctx None)
                 (Some currentRow);
               ConfirmDialog "task-delete" true
                 (open_is (ctx_open ctx) delete)
                 (ctx_setOpen ctx (Some delete) ;;
                  ctx_setCurrentRow ctx None)
                 (handleConfirm ctx currentRow)
                 "max-w-md"
                 ("Delete this task: " ++ id currentRow ++ " ?")
                 [ Text "You are about to delete a task with the ID ";
                   Strong (id currentRow); Text ". "; Br;
                   Text "This action cannot be undone." ]
                 "Delete" ]
         end)%list
  end.

Section Provider.

Variable supabase : Supabase.

(** The hook [useDialogState] (hooks/use-dialog-state) is not part of the
    sources.  Its setter is taken as a parameter: [dialogState str prev] is
    the value of [open] after [setOpen(str)] when it was [prev]. *)
Variable dialogState :
  option TasksDialogType -> option TasksDialogType -> option TasksDialogType.

Definition setOpen (str : option TasksDialogType) : M unit :=
  fun w =>
    (Returned tt,
     {| tasks := tasks w; loading := loading w; error := error w;
        open := dialogState str (open w); currentRow := currentRow w;
        log := emit (SetOpen str) w |}).

(** The context value built by a render of [TasksProvider] in world [w]. *)
Definition TasksProvider (w : World) : TasksContextType :=
  let service := useTasksService supabase w in
  {| ctx_open := open w;
     ctx_setOpen := setOpen;
     ctx_currentRow := currentRow w;
     ctx_setCurrentRow := setCurrentRow;
     ctx_tasks := svc_tasks service;
     ctx_loading := svc_loading service;
     ctx_error := svc_error service;
     ctx_fetchTasks := svc_fetchTasks service;
     ctx_createTask := svc_createTask service;
     ctx_updateTask := svc_updateTask service;
     ctx_deleteTask := svc_deleteTask service |}.

End Provider.

(** ** Vocabulary of the properties *)

(** The effects performed between world [w] and a later world [w']. *)
Definition since (w w' : World) : list Effect :=
  skipn (List.length (log w)) (log w').

Fixpoint error_toasts (l : list Effect) : list string :=
  match l with
  | [] => []
  | ToastError msg :: l' => msg :: error_toasts l'
  | _ :: l' => error_toasts l'
  end.

Definition is_SetLoading (e : Effect) : bool :=
  match e with SetLoading _ => true | _ => false end.

Definition is_SetError (e : Effect) : bool :=
  match e with SetError _ => true | _ => false end.

Definition is_SetTasks (e : Effect) : bool :=
  match e with SetTasks _ => true | _ => false end.

(** The error with which a remote call fails: the promise rejected, or the
    response carries an [error]. *)
Definition failure_of {T} (r : Reply T) : option JsError :=
  match r with
  | Rejected err => Some err
  | Resolved (Failure error) => Some error
  | Resolved (Success _) => None
  end.

(** Number of records of a list that carry a given id. *)
Definition occurrences (i : string) (l : list Task) : nat :=
  List.length (filter (fun t => id t =? i) l).

(** The records that do not carry a given id, in the order of the list. *)
Definition others (i : string) (l : list Task) : list Task :=
  filter (fun t => negb (id t =? i)) l.

(** The five operations of the service, as calls. *)
Inductive Operation : Type :=
| FetchTasks
| GetTaskById (i : string)
| CreateTask (task : TaskInput)
| UpdateTask (i : string) (task : TaskPatch)
| DeleteTask (i : string).

(** How a call ends, the returned value forgotten: the error thrown to the
    caller, if any, and the world it leaves. *)
Definition settle {A} (m : M A) (w : World) : option JsError * World :=
  match m w with
  | (Returned _, w') => (None, w')
  | (Thrown err, w') => (Some err, w')
  end.

Definition call (supabase : Supabase) (op : Operation) (w : World)
  : option JsError * World :=
  match op with
  | FetchTasks => settle (fetchTasks supabase) w
  | GetTaskById i => settle (getTaskById supabase i) w
  | CreateTask task => settle (createTask supabase task) w
  | UpdateTask i task => settle (updateTask supabase i task) w
  | DeleteTask i => settle (deleteTask supabase i) w
  end.

(** The failure an operation meets, read off the remote's reply: the
    failure of its remote call and, for an update, a reply without rows. *)
Definition failure (supabase : Supabase) (op : Operation) : option JsError :=
  match op with
  | FetchTasks => failure_of (select_all supabase)
  | GetTaskById i => failure_of (select_eq_single supabase i)
  | CreateTask task => failure_of (insert_select_single supabase task)
  | UpdateTask i task =>
      match update_eq_select supabase task i with
      | Resolved (Success DataNull) | Resolved (Success (DataArray [])) =>
          Some (Error ("Task with ID " ++ i ++ " not found"))
      | r => failure_of r
      end
  | DeleteTask i => failure_of (delete_eq supabase i)
  end.

(** The message an operation falls back on when the error has none. *)
Definition fallback (op : Operation) : string :=
  match op with
  | FetchTasks => "Failed to fetch tasks, please try again later"
  | GetTaskById i => "获取任务 " ++ i ++ " 失败"
  | CreateTask _ => "Failed to create task"
  | UpdateTask i _ => "Failed to update task " ++ i
  | DeleteTask i => "Failed to delete task " ++ i
  end.

Definition is_FetchTasks (op : Operation) : bool :=
  match op with FetchTasks => true | _ => false end.

(** ** Sample data *)

Definition task_A : Task := {| id := "1"; fields := [("title", "A")] |}.
Definition task_B : Task := {| id := "2"; fields := [("title", "B")] |}.

(** A remote that answers every call, for a table holding [task_A]. *)
Definition remote_ok : Supabase :=
  {| select_all := Resolved (Success [task_A]);
     select_eq_single := fun _ => Resolved (Success task_A);
     insert_select_single := fun _ => Resolved (Success task_A);
     update_eq_select := fun _ _ => Resolved (Success (DataArray [task_A]));
     delete_eq := fun _ => Resolved (Success tt) |}.

(** A remote whose every call fails with a message. *)
Definition remote_down : Supabase :=
  {| select_all := Resolved (Failure (Error "connection refused"));
     select_eq_single := fun _ => Resolved (Failure (Error "connection refused"));
     insert_select_single := fun _ => Resolved (Failure (Error "connection refused"));
     update_eq_select := fun _ _ => Resolved (Failure (Error "connection refused"));
     delete_eq := fun _ => Resolved (Failure (Error "connection refused")) |}.

(** A remote whose update matches no row. *)
Definition remote_no_match : Supabase :=
  {| select_all := Resolved (Success []);
     select_eq_single := fun _ => Resolved (Failure (Error "no rows"));
     insert_select_single := fun _ => Resolved (Success task_A);
     update_eq_select := fun _ _ => Resolved (Success (DataArray []));
     delete_eq := fun _ => Resolved (Success tt) |}.

(** A remote whose insert returns the record [t]. *)
Definition remote_inserting (t : Task) : Supabase :=
  {| select_all := Resolved (Success []);
     select_eq_single := fun _ => Resolved (Failure (Error "no rows"));
     insert_select_single := fun _ => Resolved (Success t);
     update_eq_select := fun _ _ => Resolved (Success (DataArray []));
     delete_eq := fun _ => Resolved (Success tt) |}.

(** Two behaviours a dialog-state setter may have: storing the value it is
    given, and closing the dialog when asked for the one already open. *)
Definition plain_setter (str prev : option TasksDialogType)
  : option TasksDialogType := str.

Definition toggling_setter (str prev : option TasksDialogType)
  : option TasksDialogType :=
  match str, prev with
  | Some a, Some b => if TasksDialogType_eqb a b then None else str
  | _, _ => str
  end.

(** A first render with the cache already holding [l]. *)
Definition cached (l : list Task) : World :=
  {| tasks := l; loading := false; error := None;
     open := None; currentRow := None; log := [] |}.

(** The delete dialog armed on [task_A], the cache holding both samples. *)
Definition delete_pending : World :=
  {| tasks := [task_A; task_B]; loading := false; error := None;
     open := Some delete; currentRow := Some task_A; log := [] |}.

(** ** Sequences of calls *)

(** One call of the service together with the remote as it answers at the
    time of that call.  A session is a list of calls, each one completed
    before the next starts; an error thrown to the caller ends the call,
    not the session. *)
Definition Step : Type := (Supabase * Operation)%type.

Fixpoint run_session (steps : list Step) (w : World) : World :=
  match steps with
  | [] => w
  | (remote, op) :: rest => run_session rest (snd (call remote op w))
  end.

(** The records the remote hands over to a call that stores records: the
    rows of a successful select of all tasks, the row of a successful
    insert. *)
Definition served (s : Step) : list Task :=
  match s with
  | (remote, FetchTasks) =>
      match select_all remote with
      | Resolved (Success rows) => rows
      | _ => []
      end
  | (remote, CreateTask task) =>
      match insert_select_single remote task with
      | Resolved (Success newTask) => [newTask]
      | _ => []
      end
  | _ => []
  end.

Fixpoint success_toasts (l : list Effect) : list string :=
  match l with
  | [] => []
  | ToastSuccess msg :: l' => msg :: success_toasts l'
  | _ :: l' => success_toasts l'
  end.

(** The text of the success notification of an operation, for those that
    have one. *)
Definition success_text (op : Operation) : list string :=
  match op with
  | CreateTask _ => ["Task created successfully"]
  | UpdateTask _ _ => ["Task updated successfully"]
  | DeleteTask _ => ["Task deleted successfully"]
  | FetchTasks | GetTaskById _ => []
  end.

Definition ids (l : list Task) : list string := map id l.

(** The error cell as the calls of a session leave it, computed from the
    replies alone: a [fetchTasks] sets it to the text of its failure or
    clears it, any other call passes it on. *)
Definition error_after_step (e : option string) (s : Step) : option string :=
  match s with
  | (remote, FetchTasks) =>
      match failure_of (select_all remote) with
      | Some err =>
          Some (or_else (message err)
                  "Failed to fetch tasks, please try again later")
      | None => None
      end
  | _ => e
  end.

Definition error_after (steps : list Step) (e : option string)
  : option string :=
  fold_left error_after_step steps e.

(** Number of notifications, of both kinds, in a list of effects. *)
Definition notifications (l : list Effect) : nat :=
  List.length (error_toasts l) + List.length (success_toasts l).

(** ** Reading a rendered view *)

(** The [open] prop of an element. *)
Definition open_of (e : Element) : bool :=
  match e with
  | TasksMutateDrawer _ o _ _ => o
  | TasksImportDialog _ o _ => o
  | ConfirmDialog _ _ o _ _ _ _ _ _ => o
  end.

(** The [onOpenChange] prop of an element. *)
Definition onOpenChange_of (e : Element) : M unit :=
  match e with
  | TasksMutateDrawer _ _ h _ => h
  | TasksImportDialog _ _ h => h
  | ConfirmDialog _ _ _ h _ _ _ _ _ => h
  end.

(** The dialog an element stands for: a drawer without a row creates, a
    drawer with a row updates. *)
Definition dialog_of (e : Element) : TasksDialogType :=
  match e with
  | TasksMutateDrawer _ _ _ None => create
  | TasksMutateDrawer _ _ _ (Some _) => update
  | TasksImportDialog _ _ _ => import
  | ConfirmDialog _ _ _ _ _ _ _ _ _ => delete
  end.

(** The [handleConfirm] prop of the first confirm dialog of a view. *)
Fixpoint handleConfirm_of (view : list Element) : option (M unit) :=
  match view with
  | [] => None
  | ConfirmDialog _ _ _ _ h _ _ _ _ :: _ => Some h
  | _ :: rest => handleConfirm_of rest
  end.

(** What [TasksDialogs] renders directly under a [TasksProvider] whose
    render sees world [w]; nothing when it throws. *)
Definition rendered_view (supabase : Supabase)
  (dialogState : option TasksDialogType -> option TasksDialogType ->
                 option TasksDialogType)
  (w : World) : list Element :=
  match TasksDialogs [TasksProvider supabase dialogState w] with
  | Returned view => view
  | Thrown _ => []
  end.

(** ** AppearanceForm: onSubmit *)

(** [z.enum(['light', 'dark'])] *)
Inductive ThemeValue : Type :=
| light | dark.

Definition ThemeValue_string (t : ThemeValue) : string :=
  match t with
  | light => "light"
  | dark => "dark"
  end.

(** [AppearanceFormValues]: the output type of the form schema. *)
Record AppearanceFormValues : Type := mkValues {
  theme : ThemeValue;
  font : string
}.

(** What [useFont()] and [useTheme()] give to the render that builds
    [onSubmit].  The theme of the context is a string: the form takes it
    [as 'light' | 'dark']. *)
Record Preferences : Type := mkPreferences {
  current_font : string;
  current_theme : string
}.

Inductive FormEffect : Type :=
| SetFont (value : string)
| SetTheme (value : string)
(* toast({ title, description }): the description shows
   JSON.stringify(data, null, 2) *)
| Toast (title : string) (data : AppearanceFormValues).

(** The calls [onSubmit(data)] makes, in program order. *)
Definition onSubmit (prefs : Preferences) (data : AppearanceFormValues)
  : list FormEffect :=
  ((if negb (font data =? current_font prefs)
    then [SetFont (font data)] else []) ++
   (if negb (ThemeValue_string (theme data) =? current_theme prefs)
    then [SetTheme (ThemeValue_string (theme data))] else []) ++
   [Toast "You submitted the following values:" data])%list.

Definition is_setter_call (e : FormEffect) : bool :=
  match e with
  | SetFont _ | SetTheme _ => true
  | Toast _ _ => false
  end.

Section Stores.

(** The font and theme contexts (context/font-context,
    context/theme-context) are not part of the sources.  Their setters are
    parameters: [font_after v prev] is the font of the context after
    [setFont(v)] when it was [prev], and likewise for the theme. *)
Variable font_after : string -> string -> string.
Variable theme_after : string -> string -> string.

Definition perform (prefs : Preferences) (e : FormEffect) : Preferences :=
  match e with
  | SetFont v =>
      {| current_font := font_after v (current_font prefs);
         current_theme := current_theme prefs |}
  | SetTheme v =>
      {| current_font := current_font prefs;
         current_theme := theme_after v (current_theme prefs) |}
  | Toast _ _ => prefs
  end.

Definition perform_all (prefs : Preferences) (l : list FormEffect)
  : Preferences :=
  fold_left perform l prefs.

End Stores.

(** A setter that stores the value it is given. *)
Definition store_value (v prev : string) : string := v.

(** * Properties *)

(** ** Basic facts *)

Lemma since_app (l s : list Effect) :
  skipn (List.length l) (l ++ s) = s.
Proof.
  induction l as [| e l IH]; simpl.
  - reflexivity.
  - exact IH.
Qed.

Lemma error_toasts_app (l1 l2 : list Effect) :
  error_toasts (l1 ++ l2) = (error_toasts l1 ++ error_toasts l2)%list.
Proof.
  induction l1 as [| e l1 IH]; simpl.
  - reflexivity.
  - destruct e; simpl; rewrite IH; reflexivity.
Qed.

Lemma failure_of_inv {T} (r : Reply T) (e : JsError) :
  failure_of r = Some e -> r = Rejected e \/ r = Resolved (Failure e).
Proof.
  destruct r as [[d | e'] | e']; simpl; intros H.
  - discriminate H.
  - injection H as ->. right. reflexivity.
  - injection H as ->. left. reflexivity.
Qed.

Lemma others_forall (i : string) (l : list Task) :
  Forall (fun t => id t <> i) (others i l).
Proof.
  unfold others. apply Forall_forall. intros t Hin.
  apply filter_In in Hin. destruct Hin as [_ Hne].
  apply negb_true_iff in Hne. apply String.eqb_neq. exact Hne.
Qed.

Lemma others_idempotent (i : string) (l : list Task) :
  others i (others i l) = others i l.
Proof.
  unfold others. induction l as [| t l IH]; simpl.
  - reflexivity.
  - destruct (negb (id t =? i)) eqn:E; simpl.
    + rewrite E, IH. reflexivity.
    + exact IH.
Qed.

Lemma occurrences_snoc (i : string) (l : list Task) (t : Task) :
  id t = i -> occurrences i (l ++ [t]) = S (occurrences i l).
Proof.
  intros <-. unfold occurrences.
  rewrite filter_app, length_app. simpl.
  rewrite String.eqb_refl. simpl. lia.
Qed.

(** Effects in program order: re-associate the log and cut the old part. *)
Ltac effects :=
  simpl; unfold since, emit; simpl;
  repeat rewrite <- app_assoc; simpl;
  try rewrite since_app; try rewrite skipn_all.

(** Open an operation down to the reply of its remote call. *)
Ltac run :=
  unfold fetchTasks, getTaskById, createTask, updateTask, deleteTask,
    try_catch_finally, try_finally, try_catch, bind, await.

(** Run an operation on a reply that is known. *)
Ltac run_with H := run; rewrite H; simpl.

(** ** The scenarios of the specification, run on the model *)

Example scenario_create_create_delete :
  let w1 := snd (createTask (remote_inserting task_A) [("title", "A")]
                   initial) in
  let w2 := snd (createTask (remote_inserting task_B) [("title", "B")] w1) in
  let w3 := snd (deleteTask remote_ok "1" w2) in
  tasks w1 = [task_A] /\ tasks w2 = [task_A; task_B] /\ tasks w3 = [task_B].
Proof.
  repeat split.
Qed.

Example scenario_getTaskById_missing :
  fst (getTaskById remote_no_match "missing" initial)
    = Thrown (Error "no rows") /\
  error_toasts (log (snd (getTaskById remote_no_match "missing" initial)))
    = ["no rows"] /\
  tasks (snd (getTaskById remote_no_match "missing" initial)) = [].
Proof.
  repeat split.
Qed.

(** ** updateTask *)

(** C1. When the remote update reports no error but its data is null or an
    empty array, [updateTask id patch] throws an error whose message is
    "Task with ID <id> not found"; it notifies that message and does
    nothing else. *)
Theorem updateTask_no_rows_not_found
  (supabase : Supabase) (id : string) (patch : TaskPatch) (w : World) :
  update_eq_select supabase patch id = Resolved (Success DataNull) \/
  update_eq_select supabase patch id = Resolved (Success (DataArray [])) ->
  updateTask supabase id patch w =
    (Thrown (Error ("Task with ID " ++ id ++ " not found")),
     snd (toast_error ("Task with ID " ++ id ++ " not found") w)).
Proof.
  intros [H | H]; run_with H; reflexivity.
Qed.

Lemma updateTask_no_rows_not_found_witness :
  update_eq_select remote_no_match [("title", "C")] "7"
    = Resolved (Success (DataArray [])) /\
  updateTask remote_no_match "7" [("title", "C")] initial =
    (Thrown (Error "Task with ID 7 not found"),
     {| tasks := []; loading := false; error := None; open := None;
        currentRow := None;
        log := [ToastError "Task with ID 7 not found"] |}).
Proof.
  split.
  - reflexivity.
  - apply (updateTask_no_rows_not_found remote_no_match "7" [("title", "C")]
             initial).
    right. reflexivity.
Defined.

(** C3. A successful [updateTask id patch] leaves the cache as it was: the
    setter of the cache is not called, the one effect of the call is the
    success notification, and every state cell keeps its value. *)
Theorem updateTask_success_keeps_cache
  (supabase : Supabase) (id : string) (patch : TaskPatch)
  (w w' : World) (updatedTask : Task) :
  updateTask supabase id patch w = (Returned updatedTask, w') ->
  tasks w' = tasks w /\
  since w w' = [ToastSuccess "Task updated successfully"] /\
  existsb is_SetTasks (since w w') = false /\
  loading w' = loading w /\ error w' = error w /\
  open w' = open w /\ currentRow w' = currentRow w.
Proof.
  unfold updateTask, try_catch, bind, await.
  destruct (update_eq_select supabase patch id)
    as [[[| [| row rows] | row] | e] | e]; simpl; intros H;
    try discriminate H; injection H as _ <-; effects; repeat split.
Qed.

Lemma updateTask_success_keeps_cache_witness :
  updateTask remote_ok "1" [("title", "A")] (cached [task_A; task_B])
    = (Returned task_A,
       snd (toast_success "Task updated successfully"
              (cached [task_A; task_B]))) /\
  tasks (snd (toast_success "Task updated successfully"
                (cached [task_A; task_B])))
    = [task_A; task_B].
Proof.
  split.
  - reflexivity.
  - apply (updateTask_success_keeps_cache remote_ok "1" [("title", "A")]
             (cached [task_A; task_B]) _ task_A).
    reflexivity.
Defined.

(** ** fetchTasks *)

(** C4. When the remote select fails, [fetchTasks] returns without
    throwing, the cache is what it was before the call, and the error cell
    holds the failure message; when the select succeeds, the cache is the
    fetched rows and the error cell is cleared. *)
Theorem fetchTasks_all_or_nothing (supabase : Supabase) (w : World) :
  (forall err, failure_of (select_all supabase) = Some err ->
     fst (fetchTasks supabase w) = Returned tt /\
     tasks (snd (fetchTasks supabase w)) = tasks w /\
     existsb is_SetTasks (since w (snd (fetchTasks supabase w))) = false /\
     error (snd (fetchTasks supabase w)) =
       Some (or_else (message err)
               "Failed to fetch tasks, please try again later")) /\
  (forall rows, select_all supabase = Resolved (Success rows) ->
     fst (fetchTasks supabase w) = Returned tt /\
     tasks (snd (fetchTasks supabase w)) = rows /\
     error (snd (fetchTasks supabase w)) = None).
Proof.
  split.
  - intros err H. apply failure_of_inv in H.
    destruct H as [H | H]; run_with H; effects; repeat split.
  - intros rows H. run_with H. repeat split.
Qed.

Lemma fetchTasks_all_or_nothing_witness :
  failure_of (select_all remote_down) = Some (Error "connection refused") /\
  tasks (snd (fetchTasks remote_down (cached [task_A; task_B]))) = [task_A; task_B] /\
  error (snd (fetchTasks remote_down (cached [task_A; task_B])))
    = Some "connection refused" /\
  select_all remote_ok = Resolved (Success [task_A]) /\
  tasks (snd (fetchTasks remote_ok (cached [task_A; task_B]))) = [task_A].
Proof.
  destruct (fetchTasks_all_or_nothing remote_down (cached [task_A; task_B]))
    as [Hfail _].
  destruct (Hfail (Error "connection refused") eq_refl)
    as [_ [Hcache [_ Herror]]].
  destruct (fetchTasks_all_or_nothing remote_ok (cached [task_A; task_B]))
    as [_ Hok].
  destruct (Hok [task_A] eq_refl) as [_ [Hrows _]].
  exact (conj eq_refl (conj Hcache (conj Herror (conj eq_refl Hrows)))).
Defined.

(** ** createTask *)

(** C5, as the code has it.  A successful [createTask] returns the record
    given by the remote insert and appends it to the cache: the prior
    contents stay, in order, before it, and it is the last record.  The
    cache then holds one more record with that id than before, hence
    exactly one when it held none.  On failure the error is thrown and the
    cache is unchanged. *)
Theorem createTask_appends_at_tail
  (supabase : Supabase) (task : TaskInput) (w : World) :
  (forall newTask,
     insert_select_single supabase task = Resolved (Success newTask) ->
     fst (createTask supabase task w) = Returned newTask /\
     tasks (snd (createTask supabase task w)) = (tasks w ++ [newTask])%list /\
     occurrences (id newTask) (tasks (snd (createTask supabase task w)))
       = S (occurrences (id newTask) (tasks w)) /\
     (occurrences (id newTask) (tasks w) = 0 ->
      occurrences (id newTask) (tasks (snd (createTask supabase task w)))
        = 1)) /\
  (forall err,
     failure_of (insert_select_single supabase task) = Some err ->
     fst (createTask supabase task w) = Thrown err /\
     tasks (snd (createTask supabase task w)) = tasks w).
Proof.
  split.
  - intros newTask H. run_with H.
    assert (Hocc : occurrences (id newTask) (tasks w ++ [newTask])
                   = S (occurrences (id newTask) (tasks w)))
      by (apply occurrences_snoc; reflexivity).
    repeat split.
    + exact Hocc.
    + intros H0. rewrite Hocc, H0. reflexivity.
  - intros err H. apply failure_of_inv in H.
    destruct H as [H | H]; run_with H; split; reflexivity.
Qed.

Lemma createTask_appends_at_tail_witness :
  insert_select_single remote_ok [("title", "A")]
    = Resolved (Success task_A) /\
  tasks (snd (createTask remote_ok [("title", "A")] initial)) = [task_A] /\
  failure_of (insert_select_single remote_down [("title", "A")])
    = Some (Error "connection refused") /\
  tasks (snd (createTask remote_down [("title", "A")] (cached [task_A; task_B])))
    = [task_A; task_B].
Proof.
  destruct (createTask_appends_at_tail remote_ok [("title", "A")] initial)
    as [Hok _].
  destruct (Hok task_A eq_refl) as [_ [Htail _]].
  destruct (createTask_appends_at_tail remote_down [("title", "A")]
              (cached [task_A; task_B])) as [_ Hfail].
  destruct (Hfail (Error "connection refused") eq_refl) as [_ Hcache].
  exact (conj eq_refl (conj Htail (conj eq_refl Hcache))).
Defined.

(** C5, as stated, fails: the cache already holds the record the insert
    returns (a refresh that completed while the insert was in flight), the
    call succeeds, and the record is in the cache twice. *)
Lemma createTask_exactly_once_counterexample :
  insert_select_single remote_ok [("title", "A")]
    = Resolved (Success task_A) /\
  fst (createTask remote_ok [("title", "A")] (cached [task_A]))
    = Returned task_A /\
  tasks (snd (createTask remote_ok [("title", "A")] (cached [task_A])))
    = [task_A; task_A] /\
  occurrences (id task_A)
    (tasks (snd (createTask remote_ok [("title", "A")] (cached [task_A]))))
    = 2 /\
  occurrences (id task_A)
    (tasks (snd (createTask remote_ok [("title", "A")] (cached [task_A]))))
    <> 1.
Proof.
  repeat split. vm_compute. discriminate.
Qed.

(** ** deleteTask *)

(** C6. After a successful [deleteTask i] no record of the cache carries
    the id [i], and the other records are the same as before, in the same
    order.  On failure the error is thrown and the cache is unchanged. *)
Theorem deleteTask_removes_by_id
  (supabase : Supabase) (i : string) (w : World) :
  (forall u, delete_eq supabase i = Resolved (Success u) ->
     fst (deleteTask supabase i w) = Returned tt /\
     Forall (fun t => id t <> i) (tasks (snd (deleteTask supabase i w))) /\
     occurrences i (tasks (snd (deleteTask supabase i w))) = 0 /\
     others i (tasks (snd (deleteTask supabase i w))) = others i (tasks w) /\
     tasks (snd (deleteTask supabase i w)) = others i (tasks w)) /\
  (forall err, failure_of (delete_eq supabase i) = Some err ->
     fst (deleteTask supabase i w) = Thrown err /\
     tasks (snd (deleteTask supabase i w)) = tasks w).
Proof.
  split.
  - intros u H. run_with H. fold (others i (tasks w)).
    repeat split.
    + apply others_forall.
    + unfold occurrences, others.
      induction (tasks w) as [| t l IH]; simpl.
      * reflexivity.
      * destruct (id t =? i) eqn:E; simpl.
        -- exact IH.
        -- rewrite E. exact IH.
    + apply others_idempotent.
  - intros err H. apply failure_of_inv in H.
    destruct H as [H | H]; run_with H; split; reflexivity.
Qed.

Lemma deleteTask_removes_by_id_witness :
  delete_eq remote_ok "1" = Resolved (Success tt) /\
  tasks (snd (deleteTask remote_ok "1" (cached [task_A; task_B]))) = [task_B] /\
  failure_of (delete_eq remote_down "1")
    = Some (Error "connection refused") /\
  tasks (snd (deleteTask remote_down "1" (cached [task_A; task_B])))
    = [task_A; task_B].
Proof.
  destruct (deleteTask_removes_by_id remote_ok "1" (cached [task_A; task_B]))
    as [Hok _].
  destruct (Hok tt eq_refl) as [_ [_ [_ [_ Hrest]]]].
  destruct (deleteTask_removes_by_id remote_down "1" (cached [task_A; task_B]))
    as [_ Hfail].
  destruct (Hfail (Error "connection refused") eq_refl) as [_ Hcache].
  exact (conj eq_refl (conj Hrest (conj eq_refl Hcache))).
Defined.

(** ** The error policy of the service *)

Lemma call_toasts_of_failure
  (supabase : Supabase) (op : Operation) (w : World) :
  error_toasts (since w (snd (call supabase op w))) =
    match failure supabase op with
    | Some err => [or_else (message err) (fallback op)]
    | None => []
    end.
Proof.
  destruct op as [| i | task | i task | i]; unfold call, failure, settle.
  - run.
    destruct (select_all supabase) as [[d | e] | e]; effects; reflexivity.
  - run.
    destruct (select_eq_single supabase i) as [[d | e] | e];
      effects; reflexivity.
  - run.
    destruct (insert_select_single supabase task) as [[d | e] | e];
      effects; reflexivity.
  - run.
    destruct (update_eq_select supabase task i)
      as [[[| [| row rows] | row] | e] | e]; effects; reflexivity.
  - run.
    destruct (delete_eq supabase i) as [[d | e] | e]; effects; reflexivity.
Qed.

Lemma call_thrown
  (supabase : Supabase) (op : Operation) (w : World) :
  fst (call supabase op w) =
    if is_FetchTasks op then None else failure supabase op.
Proof.
  destruct op as [| i | task | i task | i]; unfold call, failure, settle.
  - run.
    destruct (select_all supabase) as [[d | e] | e]; reflexivity.
  - run.
    destruct (select_eq_single supabase i) as [[d | e] | e]; reflexivity.
  - run.
    destruct (insert_select_single supabase task) as [[d | e] | e];
      reflexivity.
  - run.
    destruct (update_eq_select supabase task i)
      as [[[| [| row rows] | row] | e] | e]; reflexivity.
  - run.
    destruct (delete_eq supabase i) as [[d | e] | e]; reflexivity.
Qed.

(** C7. Whenever an operation of the service meets a failure [err], the
    call produces exactly one error notification; its text is the message
    of [err] when it has a non-empty one and the fallback of the operation
    otherwise.  [getTaskById], [createTask], [updateTask] and [deleteTask]
    then throw [err] itself to the caller and leave the error cell alone;
    [fetchTasks] throws nothing and stores the text in the error cell. *)
Theorem failure_notified_once_then_rethrown
  (supabase : Supabase) (op : Operation) (w : World) (err : JsError) :
  failure supabase op = Some err ->
  error_toasts (since w (snd (call supabase op w)))
    = [or_else (message err) (fallback op)] /\
  fst (call supabase op w)
    = (if is_FetchTasks op then None else Some err) /\
  error (snd (call supabase op w))
    = (if is_FetchTasks op
       then Some (or_else (message err) (fallback op))
       else error w).
Proof.
  intros H. split; [| split].
  - rewrite call_toasts_of_failure, H. reflexivity.
  - rewrite call_thrown, H. destruct op; reflexivity.
  - destruct op as [| i | task | i task | i];
      simpl in H; unfold call, settle; run.
    + destruct (select_all supabase) as [[d | e] | e];
        try discriminate H; injection H as ->; reflexivity.
    + destruct (select_eq_single supabase i) as [[d | e] | e];
        reflexivity.
    + destruct (insert_select_single supabase task) as [[d | e] | e];
        reflexivity.
    + destruct (update_eq_select supabase task i)
        as [[[| [| row rows] | row] | e] | e]; reflexivity.
    + destruct (delete_eq supabase i) as [[d | e] | e]; reflexivity.
Qed.

Lemma failure_notified_once_then_rethrown_witness :
  failure remote_no_match (UpdateTask "7" [("title", "C")])
    = Some (Error "Task with ID 7 not found") /\
  error_toasts
    (since initial
       (snd (call remote_no_match (UpdateTask "7" [("title", "C")]) initial)))
    = ["Task with ID 7 not found"] /\
  failure remote_down FetchTasks = Some (Error "connection refused") /\
  error_toasts (since initial (snd (call remote_down FetchTasks initial)))
    = ["connection refused"].
Proof.
  destruct (failure_notified_once_then_rethrown remote_no_match
              (UpdateTask "7" [("title", "C")]) initial
              (Error "Task with ID 7 not found") eq_refl) as [Hupdate _].
  destruct (failure_notified_once_then_rethrown remote_down
              FetchTasks initial (Error "connection refused") eq_refl)
    as [Hfetch _].
  exact (conj eq_refl (conj Hupdate (conj eq_refl Hfetch))).
Defined.

(** ** useTasks *)

(** C8. With no provider around it, [useTasks] throws; inside a provider
    it returns the context object of the nearest one, which for
    [TasksProvider] is the object that provider built. *)
Theorem useTasks_requires_provider :
  useTasks [] = Thrown (Error "useTasks has to be used within <TasksContext>")
  /\
  (forall ctx outer, useTasks (ctx :: outer) = Returned ctx) /\
  (forall supabase dialogState w outer,
     useTasks (TasksProvider supabase dialogState w :: outer)
       = Returned (TasksProvider supabase dialogState w)).
Proof.
  repeat split.
Qed.

(** ** TasksDialogs *)

(** C9. Whatever [open] is, the confirm dialog and the update drawer are
    rendered exactly when [currentRow] is not null: with a null row the
    view is the create drawer and the import dialog alone, also for
    [open = 'delete']; with a row, the confirm dialog is there and it is
    shown open exactly when [open] is ['delete']. *)
Theorem TasksDialogs_row_guard
  (ctx : TasksContextType) (outer : list TasksContextType) :
  exists view,
    TasksDialogs (ctx :: outer) = Returned view /\
    existsb is_ConfirmDialog view = has_row ctx /\
    existsb is_update_drawer view = has_row ctx /\
    existsb is_open_ConfirmDialog view
      = has_row ctx && open_is (ctx_open ctx) delete /\
    List.length view = (if has_row ctx then 4 else 2).
Proof.
  unfold TasksDialogs, has_row. simpl.
  destruct (ctx_currentRow ctx) as [row |]; simpl;
    eexists; (split; [reflexivity |]); simpl; repeat split.
  destruct (open_is (ctx_open ctx) delete); reflexivity.
Qed.

(** ** handleConfirm *)

(** C2, as the code has it.  When the confirmed [deleteTask] fails,
    [handleConfirm] returns normally and leaves [open] and [currentRow] as
    they were, so the dialog stays open on its row; after the error
    notification of [deleteTask] its one effect is the console entry.  When
    [deleteTask] succeeds it calls [setOpen(null)] and
    [setCurrentRow(null)]. *)
Theorem handleConfirm_failure_keeps_dialog
  (supabase : Supabase)
  (dialogState : option TasksDialogType -> option TasksDialogType ->
                 option TasksDialogType)
  (rendered w : World) (row : Task) :
  let ctx := TasksProvider supabase dialogState rendered in
  (forall err, failure_of (delete_eq supabase (id row)) = Some err ->
     fst (handleConfirm ctx row w) = Returned tt /\
     open (snd (handleConfirm ctx row w)) = open w /\
     currentRow (snd (handleConfirm ctx row w)) = currentRow w /\
     tasks (snd (handleConfirm ctx row w)) = tasks w /\
     since w (snd (handleConfirm ctx row w))
       = [ToastError (or_else (message err)
                        ("Failed to delete task " ++ id row));
          ConsoleError "Failed to delete task" err]) /\
  (forall u, delete_eq supabase (id row) = Resolved (Success u) ->
     fst (handleConfirm ctx row w) = Returned tt /\
     open (snd (handleConfirm ctx row w)) = dialogState None (open w) /\
     currentRow (snd (handleConfirm ctx row w)) = None /\
     tasks (snd (handleConfirm ctx row w)) = others (id row) (tasks w)).
Proof.
  intros ctx. subst ctx. unfold handleConfirm. simpl. split.
  - intros err H. apply failure_of_inv in H.
    destruct H as [H | H]; unfold try_catch at 1, bind at 1;
      run_with H; effects; repeat split.
  - intros u H. unfold try_catch at 1, bind at 1.
    run_with H. repeat split.
Qed.

Lemma handleConfirm_failure_keeps_dialog_witness :
  failure_of (delete_eq remote_down (id task_A))
    = Some (Error "connection refused") /\
  open (snd (handleConfirm
               (TasksProvider remote_down toggling_setter delete_pending)
               task_A delete_pending)) = Some delete /\
  delete_eq remote_ok (id task_A) = Resolved (Success tt) /\
  currentRow (snd (handleConfirm
                     (TasksProvider remote_ok toggling_setter delete_pending)
                     task_A delete_pending)) = None.
Proof.
  destruct (handleConfirm_failure_keeps_dialog remote_down toggling_setter
              delete_pending delete_pending task_A) as [Hfail _].
  destruct (Hfail (Error "connection refused") eq_refl) as [_ [Hopen _]].
  destruct (handleConfirm_failure_keeps_dialog remote_ok toggling_setter
              delete_pending delete_pending task_A) as [_ Hok].
  destruct (Hok tt eq_refl) as [_ [_ [Hrow _]]].
  exact (conj eq_refl (conj Hopen (conj eq_refl Hrow))).
Defined.

(** C2, as stated, fails: the delete dialog is open on [task_A], the
    remote delete fails, and after [handleConfirm] the dialog is still open
    on [task_A]. *)
Lemma handleConfirm_closes_on_failure_counterexample :
  failure_of (delete_eq remote_down (id task_A))
    = Some (Error "connection refused") /\
  fst (handleConfirm (TasksProvider remote_down plain_setter delete_pending)
         task_A delete_pending) = Returned tt /\
  open (snd (handleConfirm
               (TasksProvider remote_down plain_setter delete_pending)
               task_A delete_pending)) = Some delete /\
  currentRow (snd (handleConfirm
                     (TasksProvider remote_down plain_setter delete_pending)
                     task_A delete_pending)) = Some task_A /\
  ~ (open (snd (handleConfirm
                  (TasksProvider remote_down plain_setter delete_pending)
                  task_A delete_pending)) = None /\
     currentRow (snd (handleConfirm
                        (TasksProvider remote_down plain_setter delete_pending)
                        task_A delete_pending)) = None).
Proof.
  repeat split. intros [H _]. vm_compute in H. discriminate H.
Qed.

(** ** The loading and error cells *)

(** C10. [fetchTasks] begins by setting the loading flag, ends by clearing
    it, does not set it in between, and always returns, so the flag is
    false after the call whether the select succeeded or failed.  The four
    other operations never call the setter of the loading flag nor the
    setter of the error cell, and leave both cells as they were. *)
Theorem loading_set_only_by_fetchTasks
  (supabase : Supabase) (op : Operation) (w : World) :
  if is_FetchTasks op then
    fst (call supabase op w) = None /\
    loading (snd (call supabase op w)) = false /\
    exists between,
      since w (snd (call supabase op w))
        = (SetLoading true :: SetError None :: between
             ++ [SetLoading false])%list /\
      existsb is_SetLoading between = false
  else
    loading (snd (call supabase op w)) = loading w /\
    error (snd (call supabase op w)) = error w /\
    existsb is_SetLoading (since w (snd (call supabase op w))) = false /\
    existsb is_SetError (since w (snd (call supabase op w))) = false.
Proof.
  destruct op as [| i | task | i task | i]; simpl; unfold settle; run.
  - destruct (select_all supabase) as [[rows | e] | e].
    + repeat split. exists [SetTasks rows]. effects. split; reflexivity.
    + repeat split.
      exists [ToastError (or_else (message e)
                "Failed to fetch tasks, please try again later");
              SetError (Some (or_else (message e)
                "Failed to fetch tasks, please try again later"))].
      effects. split; reflexivity.
    + repeat split.
      exists [ToastError (or_else (message e)
                "Failed to fetch tasks, please try again later");
              SetError (Some (or_else (message e)
                "Failed to fetch tasks, please try again later"))].
      effects. split; reflexivity.
  - destruct (select_eq_single supabase i) as [[d | e] | e];
      effects; repeat split.
  - destruct (insert_select_single supabase task) as [[d | e] | e];
      effects; repeat split.
  - destruct (update_eq_select supabase task i)
      as [[[| [| row rows] | row] | e] | e]; effects; repeat split.
  - destruct (delete_eq supabase i) as [[d | e] | e];
      effects; repeat split.
Qed.

(** * Further properties of the service *)

Lemma others_absent (i : string) (l : list Task) :
  occurrences i l = 0 -> others i l = l.
Proof.
  unfold occurrences, others. induction l as [| t l IH]; simpl.
  - reflexivity.
  - destruct (id t =? i); simpl.
    + discriminate.
    + intros H. rewrite (IH H). reflexivity.
Qed.

Lemma others_length (i : string) (l : list Task) :
  List.length (others i l) + occurrences i l = List.length l.
Proof.
  unfold occurrences, others. induction l as [| t l IH]; simpl.
  - reflexivity.
  - destruct (id t =? i); simpl; lia.
Qed.

Lemma others_swap (i j : string) (l : list Task) :
  others i (others j l) = others j (others i l).
Proof.
  unfold others. induction l as [| t l IH]; simpl.
  - reflexivity.
  - destruct (id t =? j) eqn:Ej; destruct (id t =? i) eqn:Ei; simpl;
      rewrite ?Ej, ?Ei; simpl; rewrite IH; reflexivity.
Qed.

Lemma others_snoc_same (l : list Task) (t : Task) :
  others (id t) (l ++ [t]) = others (id t) l.
Proof.
  unfold others. rewrite filter_app. simpl.
  rewrite String.eqb_refl. simpl. apply app_nil_r.
Qed.

Lemma ids_others_NoDup (i : string) (l : list Task) :
  NoDup (ids l) -> NoDup (ids (others i l)).
Proof.
  unfold ids, others. induction l as [| t l IH]; simpl; intros H.
  - constructor.
  - inversion H as [| x xs Hnotin Hrest]; subst.
    destruct (id t =? i); simpl.
    + apply IH. exact Hrest.
    + constructor.
      * intros Hin. apply Hnotin.
        apply in_map_iff in Hin. destruct Hin as [t' [Hid Hin]].
        apply filter_In in Hin. destruct Hin as [Hin _].
        apply in_map_iff. exists t'. split; assumption.
      * apply IH. exact Hrest.
Qed.

Lemma ids_snoc_NoDup (l : list Task) (t : Task) :
  NoDup (ids l) -> ~ In (id t) (ids l) -> NoDup (ids (l ++ [t])).
Proof.
  unfold ids. intros Hl Hfresh. rewrite map_app. simpl.
  apply NoDup_app.
  - exact Hl.
  - constructor; [intros [] | constructor].
  - intros x Hx [Hy | []]. subst x. exact (Hfresh Hx).
Qed.

(** X1. [getTaskById] only reads: on every path the five state cells keep
    their values, and when the remote gives the row the call returns it
    and leaves the world exactly as it was, without any notification. *)
Theorem getTaskById_read_only (supabase : Supabase) (i : string) (w : World) :
  (tasks (snd (getTaskById supabase i w)) = tasks w /\
   loading (snd (getTaskById supabase i w)) = loading w /\
   error (snd (getTaskById supabase i w)) = error w /\
   open (snd (getTaskById supabase i w)) = open w /\
   currentRow (snd (getTaskById supabase i w)) = currentRow w) /\
  (forall row, select_eq_single supabase i = Resolved (Success row) ->
     getTaskById supabase i w = (Returned row, w)).
Proof.
  split.
  - run. destruct (select_eq_single supabase i) as [[d | e] | e];
      simpl; repeat split.
  - intros row H. run_with H. reflexivity.
Qed.

Lemma getTaskById_read_only_witness :
  select_eq_single remote_ok "1" = Resolved (Success task_A) /\
  getTaskById remote_ok "1" delete_pending = (Returned task_A, delete_pending).
Proof.
  destruct (getTaskById_read_only remote_ok "1" delete_pending) as [_ Hok].
  exact (conj eq_refl (Hok task_A eq_refl)).
Defined.

(** X2. A successful [deleteTask i] removes every record that carries the
    id [i]: the cache shrinks by the number of such records.  When there is
    none, the cache is the same list as before, and the call still sets
    the cache and notifies success. *)
Theorem deleteTask_counts (supabase : Supabase) (i : string) (w : World)
  (u : unit) :
  delete_eq supabase i = Resolved (Success u) ->
  List.length (tasks (snd (deleteTask supabase i w)))
    + occurrences i (tasks w) = List.length (tasks w) /\
  (occurrences i (tasks w) = 0 ->
     fst (deleteTask supabase i w) = Returned tt /\
     tasks (snd (deleteTask supabase i w)) = tasks w /\
     since w (snd (deleteTask supabase i w))
       = [SetTasks (tasks w); ToastSuccess "Task deleted successfully"]).
Proof.
  intros H. run_with H. fold (others i (tasks w)). split.
  - apply others_length.
  - intros Habsent. rewrite (others_absent _ _ Habsent).
    effects. repeat split.
Qed.

Lemma deleteTask_counts_witness :
  delete_eq remote_ok "9" = Resolved (Success tt) /\
  occurrences "9" (tasks delete_pending) = 0 /\
  tasks (snd (deleteTask remote_ok "9" delete_pending)) = [task_A; task_B].
Proof.
  destruct (deleteTask_counts remote_ok "9" delete_pending tt eq_refl)
    as [_ Habsent].
  destruct (Habsent eq_refl) as [_ [Hsame _]].
  exact (conj eq_refl (conj eq_refl Hsame)).
Defined.

(** X3. Creating a record and then deleting it by the id the remote gave
    it leaves the cache without any record of that id and with the other
    records as they were; when the id was new to the cache, the cache is
    back to what it was before the two calls. *)
Theorem createTask_then_deleteTask
  (inserting deleting : Supabase) (task : TaskInput) (newTask : Task)
  (u : unit) (w : World) :
  insert_select_single inserting task = Resolved (Success newTask) ->
  delete_eq deleting (id newTask) = Resolved (Success u) ->
  tasks (snd (deleteTask deleting (id newTask)
                (snd (createTask inserting task w))))
    = others (id newTask) (tasks w) /\
  (occurrences (id newTask) (tasks w) = 0 ->
   tasks (snd (deleteTask deleting (id newTask)
                 (snd (createTask inserting task w))))
     = tasks w).
Proof.
  intros Hins Hdel.
  assert (E : tasks (snd (deleteTask deleting (id newTask)
                            (snd (createTask inserting task w))))
              = others (id newTask) (tasks w)).
  { unfold deleteTask, try_catch, bind, await. rewrite Hdel. simpl.
    fold (others (id newTask) (tasks (snd (createTask inserting task w)))).
    run_with Hins. apply others_snoc_same. }
  split.
  - exact E.
  - intros Hnew. rewrite E. apply others_absent. exact Hnew.
Qed.

Lemma createTask_then_deleteTask_witness :
  insert_select_single (remote_inserting task_B) [("title", "B")]
    = Resolved (Success task_B) /\
  delete_eq remote_ok (id task_B) = Resolved (Success tt) /\
  tasks (snd (deleteTask remote_ok (id task_B)
                (snd (createTask (remote_inserting task_B) [("title", "B")]
                        (cached [task_A])))))
    = [task_A].
Proof.
  destruct (createTask_then_deleteTask (remote_inserting task_B) remote_ok
              [("title", "B")] task_B tt (cached [task_A]) eq_refl eq_refl)
    as [_ Hback].
  exact (conj eq_refl (conj eq_refl (Hback eq_refl))).
Defined.

(** X4. Successful deletes commute on the cache, and deleting the same id
    a second time changes nothing in it. *)
Theorem deleteTask_commutes (first second : Supabase) (i j : string)
  (u1 u2 u3 u4 : unit) (w : World) :
  delete_eq first i = Resolved (Success u1) ->
  delete_eq first j = Resolved (Success u2) ->
  delete_eq second i = Resolved (Success u3) ->
  delete_eq second j = Resolved (Success u4) ->
  tasks (snd (deleteTask second j (snd (deleteTask first i w))))
    = tasks (snd (deleteTask second i (snd (deleteTask first j w)))) /\
  tasks (snd (deleteTask second i (snd (deleteTask first i w))))
    = tasks (snd (deleteTask first i w)).
Proof.
  intros H1 H2 H3 H4.
  unfold deleteTask, try_catch, bind, await.
  rewrite H1, H2, H3, H4. simpl.
  fold (others i (tasks w)). fold (others j (tasks w)).
  fold (others j (others i (tasks w))). fold (others i (others j (tasks w))).
  fold (others i (others i (tasks w))).
  split.
  - apply others_swap.
  - apply others_idempotent.
Qed.

Lemma deleteTask_commutes_witness :
  tasks (snd (deleteTask remote_ok "2"
                (snd (deleteTask remote_ok "1" delete_pending)))) = [] /\
  tasks (snd (deleteTask remote_ok "1"
                (snd (deleteTask remote_ok "2" delete_pending)))) = [].
Proof.
  destruct (deleteTask_commutes remote_ok remote_ok "1" "2" tt tt tt tt
              delete_pending eq_refl eq_refl eq_refl eq_refl) as [Hswap _].
  split.
  - reflexivity.
  - rewrite <- Hswap. reflexivity.
Defined.

(** X5. Uniqueness of the ids in the cache is kept by every call, provided
    that the rows of a successful fetch have unique ids and that the row of
    a successful insert carries an id that is not in the cache. *)
Theorem call_keeps_ids_unique (supabase : Supabase) (op : Operation)
  (w : World) :
  NoDup (ids (tasks w)) ->
  (forall rows, op = FetchTasks ->
     select_all supabase = Resolved (Success rows) -> NoDup (ids rows)) ->
  (forall task newTask, op = CreateTask task ->
     insert_select_single supabase task = Resolved (Success newTask) ->
     ~ In (id newTask) (ids (tasks w))) ->
  NoDup (ids (tasks (snd (call supabase op w)))).
Proof.
  intros Hw Hfetch Hcreate.
  destruct op as [| i | task | i task | i]; simpl; unfold settle; run.
  - destruct (select_all supabase) as [[rows | e] | e] eqn:E; simpl.
    + apply (Hfetch rows); reflexivity.
    + exact Hw.
    + exact Hw.
  - destruct (select_eq_single supabase i) as [[d | e] | e]; exact Hw.
  - destruct (insert_select_single supabase task) as [[d | e] | e] eqn:E;
      simpl.
    + apply ids_snoc_NoDup; [exact Hw |].
      apply (Hcreate task d); [reflexivity | exact E].
    + exact Hw.
    + exact Hw.
  - destruct (update_eq_select supabase task i)
      as [[[| [| row rows] | row] | e] | e]; exact Hw.
  - destruct (delete_eq supabase i) as [[d | e] | e]; simpl.
    + apply ids_others_NoDup. exact Hw.
    + exact Hw.
    + exact Hw.
Qed.

Lemma call_keeps_ids_unique_witness :
  NoDup (ids (tasks (cached [task_A]))) /\
  NoDup (ids (tasks (snd (call (remote_inserting task_B)
                            (CreateTask [("title", "B")])
                            (cached [task_A]))))).
Proof.
  assert (HA : NoDup (ids (tasks (cached [task_A])))).
  { simpl. constructor; [intros [] | constructor]. }
  split.
  - exact HA.
  - apply (call_keeps_ids_unique (remote_inserting task_B)
             (CreateTask [("title", "B")]) (cached [task_A]) HA).
    + intros rows Hop. discriminate Hop.
    + intros task newTask _ Hins. simpl in Hins.
      injection Hins as <-. simpl. intros [H | []]. discriminate H.
Defined.

Lemma call_provenance (remote : Supabase) (op : Operation) (w : World)
  (t : Task) :
  In t (tasks (snd (call remote op w))) ->
  In t (tasks w) \/ In t (served (remote, op)).
Proof.
  destruct op as [| i | task | i task | i]; simpl; unfold settle; run.
  - destruct (select_all remote) as [[rows | e] | e]; simpl; auto.
  - destruct (select_eq_single remote i) as [[d | e] | e]; simpl; auto.
  - destruct (insert_select_single remote task) as [[d | e] | e];
      simpl; auto.
    intros H. apply in_app_or in H. exact H.
  - destruct (update_eq_select remote task i)
      as [[[| [| row rows] | row] | e] | e]; simpl; auto.
  - destruct (delete_eq remote i) as [[d | e] | e]; simpl; auto.
    intros H. apply filter_In in H. left. apply H.
Qed.

(** X6. Every record in the cache after a session was in the cache before
    it, or was handed over by the remote to a successful [fetchTasks] or
    [createTask] of the session: the rows that [updateTask] and
    [getTaskById] receive never enter the cache. *)
Theorem cache_provenance (steps : list Step) (w : World) (t : Task) :
  In t (tasks (run_session steps w)) ->
  In t (tasks w) \/ exists s, In s steps /\ In t (served s).
Proof.
  revert w. induction steps as [| [remote op] rest IH]; simpl; intros w H.
  - left. exact H.
  - apply IH in H. destruct H as [H | [s [Hs Ht]]].
    + apply call_provenance in H. destruct H as [H | H].
      * left. exact H.
      * right. exists (remote, op). split; [left; reflexivity | exact H].
    + right. exists s. split; [right; exact Hs | exact Ht].
Qed.

Lemma cache_provenance_witness :
  In task_B (tasks (run_session
                      [(remote_ok, UpdateTask "1" [("title", "A")]);
                       (remote_inserting task_B, CreateTask [("title", "B")])]
                      initial)) /\
  (In task_B (tasks initial) \/
   exists s,
     In s [(remote_ok, UpdateTask "1" [("title", "A")]);
           (remote_inserting task_B, CreateTask [("title", "B")])] /\
     In task_B (served s)).
Proof.
  assert (H : In task_B
                (tasks (run_session
                          [(remote_ok, UpdateTask "1" [("title", "A")]);
                           (remote_inserting task_B,
                            CreateTask [("title", "B")])]
                          initial))).
  { simpl. left. reflexivity. }
  split.
  - exact H.
  - exact (cache_provenance _ initial task_B H).
Defined.

Lemma call_frame (remote : Supabase) (op : Operation) (w : World) :
  open (snd (call remote op w)) = open w /\
  currentRow (snd (call remote op w)) = currentRow w /\
  loading (snd (call remote op w))
    = (if is_FetchTasks op then false else loading w) /\
  exists suffix, log (snd (call remote op w)) = (log w ++ suffix)%list.
Proof.
  destruct op as [| i | task | i task | i]; simpl; unfold settle; run.
  - destruct (select_all remote) as [[rows | e] | e]; simpl;
      repeat split; unfold emit; simpl; repeat rewrite <- app_assoc;
      eexists; reflexivity.
  - destruct (select_eq_single remote i) as [[d | e] | e]; simpl;
      repeat split; unfold emit; simpl; repeat rewrite <- app_assoc;
      try (eexists; reflexivity).
    exists []. symmetry. apply app_nil_r.
  - destruct (insert_select_single remote task) as [[d | e] | e]; simpl;
      repeat split; unfold emit; simpl; repeat rewrite <- app_assoc;
      eexists; reflexivity.
  - destruct (update_eq_select remote task i)
      as [[[| [| row rows] | row] | e] | e]; simpl;
      repeat split; unfold emit; simpl; repeat rewrite <- app_assoc;
      eexists; reflexivity.
  - destruct (delete_eq remote i) as [[d | e] | e]; simpl;
      repeat split; unfold emit; simpl; repeat rewrite <- app_assoc;
      eexists; reflexivity.
Qed.

(** X7. Over any session the service never touches the dialog state
    ([open], [currentRow]); the loading flag is false after the session as
    soon as it contains a [fetchTasks], and is what it was otherwise; and
    the log of effects only grows. *)
Theorem session_frame (steps : list Step) (w : World) :
  open (run_session steps w) = open w /\
  currentRow (run_session steps w) = currentRow w /\
  loading (run_session steps w)
    = (if existsb (fun s => is_FetchTasks (snd s)) steps
       then false else loading w) /\
  exists suffix, log (run_session steps w) = (log w ++ suffix)%list.
Proof.
  revert w. induction steps as [| [remote op] rest IH]; simpl; intros w.
  - repeat split. exists []. symmetry. apply app_nil_r.
  - destruct (IH (snd (call remote op w))) as [Ho [Hr [Hl [s2 Hlog]]]].
    destruct (call_frame remote op w) as [Ho1 [Hr1 [Hl1 [s1 Hlog1]]]].
    repeat split.
    + rewrite Ho. exact Ho1.
    + rewrite Hr. exact Hr1.
    + rewrite Hl, Hl1.
      destruct (is_FetchTasks op); simpl;
        destruct (existsb (fun s => is_FetchTasks (snd s)) rest);
        reflexivity.
    + exists (s1 ++ s2)%list. rewrite Hlog, Hlog1.
      symmetry. apply app_assoc.
Qed.

Lemma fallback_not_empty (op : Operation) : fallback op <> "".
Proof.
  destruct op; simpl; discriminate.
Qed.

Lemma or_else_not_empty (m : option string) (text : string) :
  text <> "" -> or_else m text <> "".
Proof.
  intros H. destruct m as [[| c s] |]; simpl.
  - exact H.
  - discriminate.
  - exact H.
Qed.

Lemma success_toasts_app (l1 l2 : list Effect) :
  success_toasts (l1 ++ l2) = (success_toasts l1 ++ success_toasts l2)%list.
Proof.
  induction l1 as [| e l1 IH]; simpl.
  - reflexivity.
  - destruct e; simpl; rewrite IH; reflexivity.
Qed.

Lemma notifications_app (l1 l2 : list Effect) :
  notifications (l1 ++ l2) = notifications l1 + notifications l2.
Proof.
  unfold notifications.
  rewrite error_toasts_app, success_toasts_app, !length_app. lia.
Qed.

Lemma since_extends (w w' : World) (suffix : list Effect) :
  log w' = (log w ++ suffix)%list -> since w w' = suffix.
Proof.
  intros H. unfold since. rewrite H. apply since_app.
Qed.

Lemma call_success_toasts
  (supabase : Supabase) (op : Operation) (w : World) :
  success_toasts (since w (snd (call supabase op w)))
    = match failure supabase op with
      | Some _ => []
      | None => success_text op
      end.
Proof.
  destruct op as [| i | task | i task | i]; unfold call, failure, settle;
    run.
  - destruct (select_all supabase) as [[d | e] | e]; effects; reflexivity.
  - destruct (select_eq_single supabase i) as [[d | e] | e];
      effects; reflexivity.
  - destruct (insert_select_single supabase task) as [[d | e] | e];
      effects; reflexivity.
  - destruct (update_eq_select supabase task i)
      as [[[| [| row rows] | row] | e] | e]; effects; reflexivity.
  - destruct (delete_eq supabase i) as [[d | e] | e];
      effects; reflexivity.
Qed.

Lemma call_notifications
  (supabase : Supabase) (op : Operation) (w : World) :
  notifications (since w (snd (call supabase op w))) <= 1.
Proof.
  unfold notifications.
  rewrite call_success_toasts, call_toasts_of_failure.
  destruct (failure supabase op); simpl.
  - lia.
  - destruct op; simpl; lia.
Qed.

(** X8. A call notifies at most once.  The success notification is that of
    the operation and comes exactly when a [createTask], [updateTask] or
    [deleteTask] meets no failure; [fetchTasks] and [getTaskById] are
    silent on success; a call that notifies an error notifies no
    success. *)
Theorem at_most_one_notification
  (supabase : Supabase) (op : Operation) (w : World) :
  success_toasts (since w (snd (call supabase op w)))
    = match failure supabase op with
      | Some _ => []
      | None => success_text op
      end /\
  List.length (error_toasts (since w (snd (call supabase op w))))
    + List.length (success_toasts (since w (snd (call supabase op w))))
    <= 1.
Proof.
  split.
  - apply call_success_toasts.
  - apply (call_notifications supabase op w).
Qed.

(** X9. No call ever shows an error notification with an empty text: an
    error without a message, or with an empty one, is shown as the
    fallback of the operation. *)
Theorem error_toast_never_blank
  (supabase : Supabase) (op : Operation) (w : World) :
  forallb (fun msg => negb (msg =? ""))
    (error_toasts (since w (snd (call supabase op w)))) = true.
Proof.
  rewrite call_toasts_of_failure.
  destruct (failure supabase op) as [err |]; simpl.
  - rewrite andb_true_r. apply negb_true_iff. apply String.eqb_neq.
    apply or_else_not_empty. apply fallback_not_empty.
  - reflexivity.
Qed.

(** X10. [fetchTasks] is idempotent on the state: a second fetch that gets
    the same reply leaves the cache, the loading flag and the error cell
    as the first one left them. *)
Theorem fetchTasks_idempotent (supabase : Supabase) (w : World) :
  tasks (snd (fetchTasks supabase (snd (fetchTasks supabase w))))
    = tasks (snd (fetchTasks supabase w)) /\
  loading (snd (fetchTasks supabase (snd (fetchTasks supabase w))))
    = loading (snd (fetchTasks supabase w)) /\
  error (snd (fetchTasks supabase (snd (fetchTasks supabase w))))
    = error (snd (fetchTasks supabase w)).
Proof.
  run. destruct (select_all supabase) as [[rows | e] | e]; simpl;
    repeat split.
Qed.

Lemma session_log_grows (steps : list Step) (w : World) :
  exists suffix, log (run_session steps w) = (log w ++ suffix)%list.
Proof.
  revert w. induction steps as [| [remote op] rest IH]; simpl; intros w.
  - exists []. symmetry. apply app_nil_r.
  - destruct (IH (snd (call remote op w))) as [s2 H2].
    destruct (call_frame remote op w) as [_ [_ [_ [s1 H1]]]].
    exists (s1 ++ s2)%list. rewrite H2, H1. symmetry. apply app_assoc.
Qed.

(** X11. Over a session the user sees at most one notification per call. *)
Theorem session_notifications_bounded (steps : list Step) (w : World) :
  notifications (since w (run_session steps w)) <= List.length steps.
Proof.
  revert w. induction steps as [| [remote op] rest IH]; simpl; intros w.
  - unfold since. rewrite skipn_all. unfold notifications. simpl. lia.
  - destruct (call_frame remote op w) as [_ [_ [_ [s1 H1]]]].
    destruct (session_log_grows rest (snd (call remote op w))) as [s2 H2].
    assert (E : since w (run_session rest (snd (call remote op w)))
                = (s1 ++ s2)%list).
    { apply since_extends. rewrite H2, H1. symmetry. apply app_assoc. }
    rewrite E, notifications_app.
    specialize (IH (snd (call remote op w))).
    rewrite (since_extends _ _ _ H2) in IH.
    pose proof (call_notifications remote op w) as Hone.
    rewrite (since_extends _ _ _ H1) in Hone.
    lia.
Qed.

Lemma call_error_cell (remote : Supabase) (op : Operation) (w : World) :
  error (snd (call remote op w)) = error_after_step (error w) (remote, op).
Proof.
  destruct op as [| i | task | i task | i]; simpl; unfold settle; run.
  - destruct (select_all remote) as [[rows | e] | e]; reflexivity.
  - destruct (select_eq_single remote i) as [[d | e] | e]; reflexivity.
  - destruct (insert_select_single remote task) as [[d | e] | e];
      reflexivity.
  - destruct (update_eq_select remote task i)
      as [[[| [| row rows] | row] | e] | e]; reflexivity.
  - destruct (delete_eq remote i) as [[d | e] | e]; reflexivity.
Qed.

(** X12. After any session the error cell tells the outcome of the last
    [fetchTasks] of the session, and is what it was when there was none:
    the failure of another operation never shows in it, and the success of
    another operation never clears it. *)
Theorem error_cell_follows_last_fetch (steps : list Step) (w : World) :
  error (run_session steps w) = error_after steps (error w).
Proof.
  unfold error_after. revert w.
  induction steps as [| [remote op] rest IH]; simpl; intros w.
  - reflexivity.
  - rewrite IH, call_error_cell. reflexivity.
Qed.

(** * Further properties of the dialogs *)

Lemma occurrences_others (i : string) (l : list Task) :
  occurrences i (others i l) = 0.
Proof.
  unfold occurrences, others. induction l as [| t l IH]; simpl.
  - reflexivity.
  - destruct (id t =? i) eqn:E; simpl.
    + exact IH.
    + rewrite E. exact IH.
Qed.

(** X13. Every element of the rendered view is shown open exactly when
    [open] is the dialog it stands for, and its [onOpenChange] asks
    [setOpen] for that same dialog.  The handlers of the update drawer and
    of the confirm dialog also clear [currentRow]; those of the create
    drawer and of the import dialog leave it.  No handler throws or
    touches the cache, the loading flag or the error cell. *)
Theorem onOpenChange_effect
  (supabase : Supabase)
  (dialogState : option TasksDialogType -> option TasksDialogType ->
                 option TasksDialogType)
  (rendered w : World) (e : Element) :
  In e (rendered_view supabase dialogState rendered) ->
  open_of e = open_is (open rendered) (dialog_of e) /\
  fst (onOpenChange_of e w) = Returned tt /\
  open (snd (onOpenChange_of e w))
    = dialogState (Some (dialog_of e)) (open w) /\
  currentRow (snd (onOpenChange_of e w))
    = match dialog_of e with
      | update | delete => None
      | create | import => currentRow w
      end /\
  tasks (snd (onOpenChange_of e w)) = tasks w /\
  loading (snd (onOpenChange_of e w)) = loading w /\
  error (snd (onOpenChange_of e w)) = error w.
Proof.
  unfold rendered_view, TasksDialogs. simpl.
  destruct (currentRow rendered) as [row |]; simpl; intros Hin.
  - destruct Hin as [<- | [<- | [<- | [<- | []]]]]; simpl; repeat split.
  - destruct Hin as [<- | [<- | []]]; simpl; repeat split.
Qed.

Lemma onOpenChange_effect_witness :
  In (TasksImportDialog "tasks-import" false
        (setOpen toggling_setter (Some import)))
     (rendered_view remote_ok toggling_setter delete_pending) /\
  open (snd (setOpen toggling_setter (Some import) delete_pending))
    = Some import /\
  currentRow (snd (setOpen toggling_setter (Some import) delete_pending))
    = Some task_A.
Proof.
  assert (Hin :
    In (TasksImportDialog "tasks-import" false
          (setOpen toggling_setter (Some import)))
       (rendered_view remote_ok toggling_setter delete_pending)).
  { simpl. right. left. reflexivity. }
  destruct (onOpenChange_effect remote_ok toggling_setter delete_pending
              delete_pending _ Hin) as [_ [_ [Hopen [Hrow _]]]].
  exact (conj Hin (conj Hopen Hrow)).
Defined.

(** X14. Outside a provider [TasksDialogs] throws the error of [useTasks]
    and renders nothing.  Inside one, at most one element of the view is
    shown open: none when [open] is null, and none either when [open] is
    ['update'] or ['delete'] while there is no current row. *)
Theorem TasksDialogs_one_open_at_most
  (ctx : TasksContextType) (outer : list TasksContextType) :
  TasksDialogs []
    = Thrown (Error "useTasks has to be used within <TasksContext>") /\
  exists view,
    TasksDialogs (ctx :: outer) = Returned view /\
    List.length (filter open_of view)
      = match ctx_open ctx with
        | None => 0
        | Some create | Some import => 1
        | Some update | Some delete => if has_row ctx then 1 else 0
        end.
Proof.
  split.
  - reflexivity.
  - unfold TasksDialogs, has_row. simpl.
    eexists. split; [reflexivity |].
    destruct (ctx_open ctx) as [[| | |] |];
      destruct (ctx_currentRow ctx) as [row |]; reflexivity.
Qed.

(** X15. The delete flow through the view.  A render that sees the row
    [row] gives the confirm dialog a [handleConfirm] that deletes the id of
    that row, whatever the current row is when it runs.  When the remote
    delete succeeds, no record with that id is left in the cache and the
    next render has no confirm dialog.  When it fails, the cache is
    unchanged and the next render shows the same dialogs, open or closed,
    as a render of the world before the click. *)
Theorem confirm_delete_flow
  (supabase : Supabase)
  (dialogState : option TasksDialogType -> option TasksDialogType ->
                 option TasksDialogType)
  (rendered w : World) (row : Task) :
  currentRow rendered = Some row ->
  exists h,
    handleConfirm_of (rendered_view supabase dialogState rendered) = Some h /\
    (forall u, delete_eq supabase (id row) = Resolved (Success u) ->
       occurrences (id row) (tasks (snd (h w))) = 0 /\
       existsb is_ConfirmDialog
         (rendered_view supabase dialogState (snd (h w))) = false) /\
    (forall err, failure_of (delete_eq supabase (id row)) = Some err ->
       tasks (snd (h w)) = tasks w /\
       map open_of (rendered_view supabase dialogState (snd (h w)))
         = map open_of (rendered_view supabase dialogState w) /\
       map dialog_of (rendered_view supabase dialogState (snd (h w)))
         = map dialog_of (rendered_view supabase dialogState w)).
Proof.
  intros Hrow. unfold rendered_view at 1, TasksDialogs. simpl.
  rewrite Hrow. simpl. eexists. split; [reflexivity |].
  unfold handleConfirm. simpl. split.
  - intros u H. unfold try_catch at 1, bind at 1.
    run_with H. fold (others (id row) (tasks w)). split.
    + apply occurrences_others.
    + reflexivity.
  - intros err H. apply failure_of_inv in H.
    destruct H as [H | H]; unfold try_catch at 1, bind at 1;
      run_with H; unfold rendered_view, TasksDialogs; simpl;
      repeat split.
Qed.

Lemma confirm_delete_flow_witness :
  currentRow delete_pending = Some task_A /\
  delete_eq remote_ok (id task_A) = Resolved (Success tt) /\
  failure_of (delete_eq remote_down (id task_A))
    = Some (Error "connection refused") /\
  (exists h,
     handleConfirm_of (rendered_view remote_ok toggling_setter delete_pending)
       = Some h /\
     occurrences (id task_A) (tasks (snd (h delete_pending))) = 0) /\
  (exists h,
     handleConfirm_of
       (rendered_view remote_down toggling_setter delete_pending) = Some h /\
     tasks (snd (h delete_pending)) = [task_A; task_B]).
Proof.
  destruct (confirm_delete_flow remote_ok toggling_setter delete_pending
              delete_pending task_A eq_refl) as [h1 [Hh1 [Hok _]]].
  destruct (Hok tt eq_refl) as [Hgone _].
  destruct (confirm_delete_flow remote_down toggling_setter delete_pending
              delete_pending task_A eq_refl) as [h2 [Hh2 [_ Hfail]]].
  destruct (Hfail (Error "connection refused") eq_refl) as [Hkept _].
  refine (conj eq_refl (conj eq_refl (conj eq_refl (conj _ _)))).
  - exists h1. exact (conj Hh1 Hgone).
  - exists h2. exact (conj Hh2 Hkept).
Defined.

(** * The appearance form *)

(** X16. [onSubmit] calls a setter only for a value that differs from the
    one its context holds, then shows one toast with the submitted values.
    When the setters store what they are given, the contexts hold the
    submitted font and theme after the call, and submitting the same
    values again calls no setter. *)
Theorem onSubmit_stores_what_differs
  (font_after theme_after : string -> string -> string)
  (prefs : Preferences) (data : AppearanceFormValues) :
  (forall v prev, font_after v prev = v) ->
  (forall v prev, theme_after v prev = v) ->
  List.length (filter is_setter_call (onSubmit prefs data))
    = (if font data =? current_font prefs then 0 else 1)
      + (if ThemeValue_string (theme data) =? current_theme prefs
         then 0 else 1) /\
  last (onSubmit prefs data) (SetFont "")
    = Toast "You submitted the following values:" data /\
  perform_all font_after theme_after prefs (onSubmit prefs data)
    = {| current_font := font data;
         current_theme := ThemeValue_string (theme data) |} /\
  onSubmit (perform_all font_after theme_after prefs (onSubmit prefs data))
    data
    = [Toast "You submitted the following values:" data].
Proof.
  intros Hfont Htheme.
  assert (Hend : perform_all font_after theme_after prefs
                   (onSubmit prefs data)
                 = {| current_font := font data;
                      current_theme := ThemeValue_string (theme data) |}).
  { unfold onSubmit, perform_all. destruct prefs as [f t]. simpl.
    destruct (font data =? f) eqn:Ef;
      destruct (ThemeValue_string (theme data) =? t) eqn:Et; simpl;
      rewrite ?Hfont, ?Htheme;
      try (apply String.eqb_eq in Ef; rewrite Ef);
      try (apply String.eqb_eq in Et; rewrite Et);
      reflexivity. }
  repeat split.
  - unfold onSubmit.
    destruct (font data =? current_font prefs);
      destruct (ThemeValue_string (theme data) =? current_theme prefs);
      reflexivity.
  - unfold onSubmit.
    destruct (font data =? current_font prefs);
      destruct (ThemeValue_string (theme data) =? current_theme prefs);
      reflexivity.
  - exact Hend.
  - rewrite Hend. unfold onSubmit. simpl.
    rewrite !String.eqb_refl. reflexivity.
Qed.

Lemma onSubmit_stores_what_differs_witness :
  perform_all store_value store_value
    {| current_font := "inter"; current_theme := "system" |}
    (onSubmit {| current_font := "inter"; current_theme := "system" |}
       {| theme := dark; font := "inter" |})
    = {| current_font := "inter"; current_theme := "dark" |} /\
  onSubmit {| current_font := "inter"; current_theme := "system" |}
    {| theme := dark; font := "inter" |}
    = [SetTheme "dark";
       Toast "You submitted the following values:"
         {| theme := dark; font := "inter" |}].
Proof.
  destruct (onSubmit_stores_what_differs store_value store_value
              {| current_font := "inter"; current_theme := "system" |}
              {| theme := dark; font := "inter" |}
              (fun v prev => eq_refl) (fun v prev => eq_refl))
    as [_ [_ [Hend _]]].
  exact (conj Hend eq_refl).
Defined.
